(** * The remediation dispatcher of [src/index.js]

    A shallow embedding of the single [POST /execute] handler and of the
    three clients it dispatches to ([blockIPCloudflare],
    [createJiraTicket], [alertSRESlack]), followed by the properties the
    specification states about them.

    JavaScript values are embedded as a data type of JSON-shaped values,
    strings as byte strings (UTF-8), the effects of the handler (outbound
    [fetch], [console.error], reading the clock) as a small
    state-and-exception monad over an explicit [world] that holds the
    environment and answers the outbound calls.  The request body is what
    [express.json()] has parsed; the response is the status and the value
    given to [res.json]. *)

From Stdlib Require Import String Ascii List Bool NArith ZArith Lia.
From Stdlib Require Import DecimalString.
Import ListNotations.
Open Scope string_scope.

Set Implicit Arguments.
Set Warnings "-register-all".

(** ** Exceptions *)

(** The two values on which a property read throws. *)
Inductive nullish := Undefined | Null.

(** The [TypeError]s the engine itself raises in this program. *)
Inductive type_error :=
| ReadPropertyOfNullish (base : nullish) (prop : string)
    (* [x.prop] with [x] undefined or null *)
| DestructureNullish (base : nullish)
    (* [const {..} = x] with [x] undefined or null *)
| NotConvertibleToPrimitive
    (* string conversion of an object with no usable [toString]/[valueOf] *)
| NotAFunction (name : string).
    (* a method call on a value that has no such method *)

Inductive exn :=
| Error (message : string)          (* [throw new Error(message)] *)
| TypeError (e : type_error)        (* raised by the engine *)
| FetchError (message : string).    (* a rejected [fetch] or [response.json()] *)

(** ** The engine

    What the program takes from the JavaScript engine without defining it:
    the number type of parsed JSON and its rendering, and the wording of
    the engine's own error messages. *)
Class Engine := {
  number : Type;
  Number_toString : number -> string;   (* Number::toString, radix 10 *)
  Number_isZeroOrNaN : number -> bool;  (* the falsy numbers *)
  Number_isFinite : number -> bool;
  TypeError_message : type_error -> string
}.

(** ** Strings *)

Definition chr (n : nat) : string := String (ascii_of_nat n) EmptyString.
Definition LF : string := chr 10.
Definition DQUOTE : string := chr 34.

Fixpoint map_chars (f : ascii -> string) (s : string) : string :=
  match s with
  | EmptyString => EmptyString
  | String c rest => f c ++ map_chars f rest
  end.

(** [s.replaceAll("_", " ")]: the pattern is one character long. *)
Definition replaceAll_underscore_space (s : string) : string :=
  map_chars (fun c => if Ascii.eqb c "_"%char then " " else String c EmptyString) s.

(** [s.toUpperCase()] on the ASCII range, which holds the three action
    names that reach it; other bytes are kept. *)
Definition toUpperCase (s : string) : string :=
  map_chars (fun c =>
    let n := nat_of_ascii c in
    if (97 <=? n)%nat && (n <=? 122)%nat then chr (n - 32) else String c EmptyString) s.


Definition hex_digit (n : nat) : string :=
  match get n "0123456789abcdef" with
  | Some c => String c EmptyString
  | None => EmptyString
  end.

(** QuoteJSONString, on strings of well-formed text: the quote, the
    backslash and the control characters are escaped. *)
Definition quote_char (c : ascii) : string :=
  let n := nat_of_ascii c in
  if (n =? 8)%nat then "\b"
  else if (n =? 9)%nat then "\t"
  else if (n =? 10)%nat then "\n"
  else if (n =? 12)%nat then "\f"
  else if (n =? 13)%nat then "\r"
  else if (n =? 34)%nat then "\" ++ DQUOTE
  else if (n =? 92)%nat then "\\"
  else if (n <? 32)%nat then "\u00" ++ hex_digit (n / 16) ++ hex_digit (n mod 16)
  else String c EmptyString.

Definition QuoteJSONString (s : string) : string :=
  DQUOTE ++ map_chars quote_char s ++ DQUOTE.

(** [Buffer.from(s).toString("base64")]. *)
Definition base64_digit (n : N) : string :=
  match get (N.to_nat n)
          "ABCDEFGHIJKLMNOPQRSTUVWXYZabcdefghijklmnopqrstuvwxyz0123456789+/" with
  | Some c => String c EmptyString
  | None => EmptyString
  end.

Fixpoint base64_bytes (l : list N) : string :=
  match l with
  | [] => ""
  | [a] =>
      let n := (a * 65536)%N in
      base64_digit (n / 262144) ++ base64_digit ((n / 4096) mod 64) ++ "=="
  | [a; b] =>
      let n := (a * 65536 + b * 256)%N in
      base64_digit (n / 262144) ++ base64_digit ((n / 4096) mod 64)
        ++ base64_digit ((n / 64) mod 64) ++ "="
  | a :: b :: c :: rest =>
      let n := (a * 65536 + b * 256 + c)%N in
      base64_digit (n / 262144) ++ base64_digit ((n / 4096) mod 64)
        ++ base64_digit ((n / 64) mod 64) ++ base64_digit (n mod 64)
        ++ base64_bytes rest
  end.

Definition base64 (s : string) : string :=
  base64_bytes (map N_of_ascii (list_ascii_of_string s)).

Section Values.
Context {E : Engine}.

(** ** Values

    What [JSON.parse] yields, and [undefined] for what is absent.  An
    object lists its own properties in enumeration order. *)
Inductive value :=
| JUndefined
| JNull
| JBool (b : bool)
| JNum (n : number)
| JStr (s : string)
| JArr (items : list value)
| JObj (props : list (string * value)).

Fixpoint lookup (k : string) (props : list (string * value)) : option value :=
  match props with
  | [] => None
  | (k', v) :: rest => if String.eqb k k' then Some v else lookup k rest
  end.

Definition has_own (props : list (string * value)) (k : string) : bool :=
  match lookup k props with Some _ => true | None => false end.

(** [obj.k], for the property names this program reads ([action],
    [target], [severity], [threat], [success], [result], [errors],
    [message], [id], [key]): none of them is on a built-in prototype, so
    only an object's own property can answer. *)
Definition get_prop (v : value) (k : string) : exn + value :=
  match v with
  | JUndefined => inl (TypeError (ReadPropertyOfNullish Undefined k))
  | JNull => inl (TypeError (ReadPropertyOfNullish Null k))
  | JObj props => inr (match lookup k props with Some x => x | None => JUndefined end)
  | _ => inr JUndefined
  end.

(** The same read where it cannot throw: [undefined] stands for a failed
    read as for an absent property. *)
Definition prop (v : value) (k : string) : value :=
  match get_prop v k with inr x => x | inl _ => JUndefined end.

(** A default value, which replaces [undefined] only. *)
Definition default_to (d v : value) : value :=
  match v with JUndefined => d | _ => v end.

(** [v[0]] on a value that is neither undefined nor null.  Of a string it
    is the first character, again a string; the program only goes on to
    read [message] of it, which no string has. *)
Definition get_index0 (v : value) : value :=
  match v with
  | JArr (x :: _) => x
  | JObj props => match lookup "0" props with Some x => x | None => JUndefined end
  | JStr (String c _) => JStr (String c EmptyString)
  | _ => JUndefined
  end.

Definition is_nullish (v : value) : bool :=
  match v with JUndefined | JNull => true | _ => false end.

Definition ToBoolean (v : value) : bool :=
  match v with
  | JUndefined | JNull => false
  | JBool b => b
  | JNum n => negb (Number_isZeroOrNaN n)
  | JStr s => negb (String.eqb s "")
  | JArr _ | JObj _ => true
  end.

(** [a || b] *)
Definition or_else (a b : value) : value := if ToBoolean a then a else b.

(** [v === "s"] *)
Definition strict_eq_str (v : value) (s : string) : bool :=
  match v with JStr t => String.eqb t s | _ => false end.

Fixpoint sequence (l : list (exn + string)) : exn + list string :=
  match l with
  | [] => inr []
  | inl e :: _ => inl e
  | inr s :: rest =>
      match sequence rest with
      | inl e => inl e
      | inr ss => inr (s :: ss)
      end
  end.

(** ToString, as a template literal applies it.  An array is joined with
    commas; an object answers through [Object.prototype.toString] unless an
    own [toString] property (never callable in parsed JSON) hides it, and
    then the conversion throws. *)
Fixpoint ToString (v : value) : exn + string :=
  match v with
  | JUndefined => inr "undefined"
  | JNull => inr "null"
  | JBool b => inr (if b then "true" else "false")
  | JNum n => inr (Number_toString n)
  | JStr s => inr s
  | JArr items =>
      match sequence (map (fun x => if is_nullish x then inr "" else ToString x) items) with
      | inl e => inl e
      | inr parts => inr (String.concat "," parts)
      end
  | JObj props =>
      if has_own props "toString" then inl (TypeError NotConvertibleToPrimitive)
      else inr "[object Object]"
  end.

(** SerializeJSONProperty with [gap] and the current [indent]; [None] is
    [undefined]. *)
Fixpoint SerializeJSONProperty (gap indent : string) (v : value) : option string :=
  match v with
  | JUndefined => None
  | JNull => Some "null"
  | JBool b => Some (if b then "true" else "false")
  | JNum n => Some (if Number_isFinite n then Number_toString n else "null")
  | JStr s => Some (QuoteJSONString s)
  | JArr items =>
      let stepback := indent in
      let indent := indent ++ gap in
      let partial :=
        map (fun x => match SerializeJSONProperty gap indent x with
                      | Some s => s
                      | None => "null"
                      end) items in
      Some (match partial with
            | [] => "[]"
            | _ =>
                if String.eqb gap "" then "[" ++ String.concat "," partial ++ "]"
                else "[" ++ LF ++ indent
                       ++ String.concat ("," ++ LF ++ indent) partial
                       ++ LF ++ stepback ++ "]"
            end)
  | JObj props =>
      let stepback := indent in
      let indent := indent ++ gap in
      let partial :=
        flat_map (fun p => match SerializeJSONProperty gap indent (snd p) with
                           | Some s =>
                               [QuoteJSONString (fst p) ++ ":"
                                  ++ (if String.eqb gap "" then "" else " ") ++ s]
                           | None => []
                           end) props in
      Some (match partial with
            | [] => "{}"
            | _ =>
                if String.eqb gap "" then "{" ++ String.concat "," partial ++ "}"
                else "{" ++ LF ++ indent
                       ++ String.concat ("," ++ LF ++ indent) partial
                       ++ LF ++ stepback ++ "}"
            end)
  end.

(** [JSON.stringify(v)] *)
Definition JSON_stringify (v : value) : option string :=
  SerializeJSONProperty "" "" v.

(** [JSON.stringify(v, null, 2)] *)
Definition JSON_stringify_2 (v : value) : option string :=
  SerializeJSONProperty "  " "" v.

(** What a template literal makes of [JSON.stringify]'s result. *)
Definition template_of_option (o : option string) : string :=
  match o with Some s => s | None => "undefined" end.

End Values.

(** ** The world and the effects *)

Section Service.
Context {E : Engine}.

(** The second argument of [fetch], with the URL. *)
Record fetch_request := {
  url : string;
  method : string;
  headers : list (string * string);
  body : option string
}.

(** A resolved [fetch]: the HTTP status and what [response.json()] gives. *)
Record fetch_response := {
  status : nat;
  json : exn + value
}.

(** [response.ok] *)
Definition ok (r : fetch_response) : bool :=
  (200 <=? status r)%nat && (status r <=? 299)%nat.

(** What the handler does not decide: the process environment, what each
    outbound call meets (a rejection, or a response), and the clock. *)
Record world := {
  env : string -> option string;
  remote : fetch_request -> exn + fetch_response;
  clock : nat -> string
}.

Inductive event :=
| Fetch (r : fetch_request)
| ConsoleError (args : list value).

Record state := {
  events : list event;      (* oldest first *)
  clock_reads : nat
}.

Definition initial : state := {| events := []; clock_reads := 0 |}.

Definition M (A : Type) : Type := state -> (exn + A) * state.

Definition ret {A} (a : A) : M A := fun s => (inr a, s).

Definition throw {A} (e : exn) : M A := fun s => (inl e, s).

Definition bind {A B} (m : M A) (k : A -> M B) : M B :=
  fun s =>
    match m s with
    | (inl e, s') => (inl e, s')
    | (inr a, s') => k a s'
    end.

Definition lift {A} (r : exn + A) : M A :=
  match r with inl e => throw e | inr a => ret a end.

Definition emit (e : event) : M unit :=
  fun s => (inr tt, {| events := events s ++ [e]; clock_reads := clock_reads s |}).

Local Notation "x <- m ;; k" := (bind m (fun x => k))
  (at level 61, m at next level, right associativity).
Local Notation "m ;;; k" := (bind m (fun _ => k))
  (at level 61, right associativity).

Variable w : world.

(** [process.env.NAME] *)
Definition process_env (name : string) : value :=
  match env w name with Some s => JStr s | None => JUndefined end.

(** [await fetch(url, init)] *)
Definition fetch (r : fetch_request) : M fetch_response :=
  emit (Fetch r) ;;; lift (remote w r).

(** [console.error(...args)] *)
Definition console_error (args : list value) : M unit :=
  emit (ConsoleError args).

(** [new Date().toISOString()] *)
Definition Date_now_toISOString : M string :=
  fun s => (inr (clock w (clock_reads s)),
            {| events := events s; clock_reads := S (clock_reads s) |}).

(** [new Error(m)]: the message is [m] converted to a string. *)
Definition new_Error (m : value) : exn + exn :=
  match ToString m with
  | inl e => inl e
  | inr s => inr (Error s)
  end.

(** [err.message] *)
Definition message_of (e : exn) : string :=
  match e with
  | Error m => m
  | TypeError t => TypeError_message t
  | FetchError m => m
  end.

(** [s.replaceAll("_", " ").toUpperCase()] on a value. *)
Definition replaceAll_toUpperCase (v : value) : exn + string :=
  match v with
  | JStr s => inr (toUpperCase (replaceAll_underscore_space s))
  | JUndefined => inl (TypeError (ReadPropertyOfNullish Undefined "replaceAll"))
  | JNull => inl (TypeError (ReadPropertyOfNullish Null "replaceAll"))
  | _ => inl (TypeError (NotAFunction "replaceAll"))
  end.

(** ** Ticketing client

    The four constants are read from the environment when the module is
    loaded; the environment of the process does not change afterwards, so
    they are read here from the environment of the request. *)

Definition JIRA_BASE_URL : value := process_env "JIRA_BASE".
Definition JIRA_EMAIL : value := process_env "JIRA_MAIL".
Definition JIRA_API_TOKEN : value := process_env "JIRA_API".
Definition JIRA_PROJECT_KEY : value := process_env "JIRA_PROJECT".

Definition jira_payload (summary description priority : string) : value :=
  JObj [("fields", JObj [
    ("project", JObj [("key", JIRA_PROJECT_KEY)]);
    ("summary", JStr summary);
    ("description", JStr description);
    ("issuetype", JObj [("name", JStr "Task")]);
    ("priority", JObj [("name", JStr priority)]);
    ("labels", JArr [JStr "threatpilot"; JStr "automated"])])].

Definition jira_request (base auth : string) (payload : value) : fetch_request :=
  {| url := base ++ "/rest/api/3/issue";
     method := "POST";
     headers := [("Authorization", "Basic " ++ auth);
                 ("Content-Type", "application/json")];
     body := JSON_stringify payload |}.

Definition createJiraTicket (summary description : string) (priority : option string)
  : M value :=
  let priority := match priority with Some p => p | None => "Medium" end in
  if negb (ToBoolean JIRA_BASE_URL) || negb (ToBoolean JIRA_EMAIL)
     || negb (ToBoolean JIRA_API_TOKEN) || negb (ToBoolean JIRA_PROJECT_KEY)
  then throw (Error "Jira environment variables missing")
  else
    email <- lift (ToString JIRA_EMAIL) ;;
    token <- lift (ToString JIRA_API_TOKEN) ;;
    let auth := base64 (email ++ ":" ++ token) in
    let payload := jira_payload summary description priority in
    base <- lift (ToString JIRA_BASE_URL) ;;
    res <- fetch (jira_request base auth payload) ;;
    data <- lift (json res) ;;
    if negb (ok res) then
      console_error [JStr "Jira error:"; data] ;;;
      throw (Error "Failed to create Jira ticket")
    else
      lift (get_prop data "key").

(** ** Notification client *)

Definition slack_message (section1 section2 timestamp : string) : value :=
  JObj [
    ("text", JStr "🚨 *Security Alert – ThreatPilot*");
    ("blocks", JArr [
      JObj [("type", JStr "section");
            ("text", JObj [("type", JStr "mrkdwn"); ("text", JStr section1)])];
      JObj [("type", JStr "section");
            ("text", JObj [("type", JStr "mrkdwn"); ("text", JStr section2)])];
      JObj [("type", JStr "context");
            ("elements", JArr [
              JObj [("type", JStr "mrkdwn");
                    ("text", JStr ("⏱ " ++ timestamp))]])]])].

Definition slack_request (webhook : string) (message : value) : fetch_request :=
  {| url := webhook;
     method := "POST";
     headers := [("Content-Type", "application/json")];
     body := JSON_stringify message |}.

Definition alertSRESlack (payload : value) : M unit :=
  let webhook := process_env "SLACK_WEBHOOK_URL" in
  if negb (ToBoolean webhook) then throw (Error "Slack webhook not configured")
  else
    threat <- lift (get_prop payload "threat") ;;
    threat_s <- lift (ToString (or_else threat (JStr "Unknown"))) ;;
    severity <- lift (get_prop payload "severity") ;;
    severity_s <- lift (ToString (or_else severity (JStr "Medium"))) ;;
    target <- lift (get_prop payload "target") ;;
    target_s <- lift (ToString (or_else target (JStr "N/A"))) ;;
    action <- lift (get_prop payload "action") ;;
    action_s <- lift (ToString action) ;;
    now <- Date_now_toISOString ;;
    let message :=
      slack_message
        ("*Threat:* " ++ threat_s ++ LF ++ "*Severity:* " ++ severity_s)
        ("*Target:* " ++ target_s ++ LF ++ "*Recommended Action:* " ++ action_s)
        now in
    url <- lift (ToString webhook) ;;
    _ <- fetch (slack_request url message) ;;
    ret tt.

(** ** Firewall client *)

Definition cloudflare_request (zoneId apiToken : string) (ip : value) : fetch_request :=
  {| url := "https://api.cloudflare.com/client/v4/zones/" ++ zoneId
              ++ "/firewall/access_rules/rules";
     method := "POST";
     headers := [("Authorization", "Bearer " ++ apiToken);
                 ("Content-Type", "application/json")];
     body := JSON_stringify (JObj [
       ("mode", JStr "block");
       ("configuration", JObj [("target", JStr "ip"); ("value", ip)]);
       ("notes", JStr "ThreatPilot automated remediation")]) |}.

(** [data.errors?.[0]?.message] *)
Definition first_error_message (data : value) : exn + value :=
  match get_prop data "errors" with
  | inl e => inl e
  | inr errors =>
      if is_nullish errors then inr JUndefined
      else
        let first := get_index0 errors in
        if is_nullish first then inr JUndefined
        else get_prop first "message"
  end.

Definition blockIPCloudflare (ip : value) : M value :=
  let zoneId := process_env "CF_ZONE_ID" in
  let apiToken := process_env "CF_API_TOKEN" in
  if negb (ToBoolean zoneId) || negb (ToBoolean apiToken)
  then throw (Error "Cloudflare env vars missing")
  else
    zone_s <- lift (ToString zoneId) ;;
    token_s <- lift (ToString apiToken) ;;
    response <- fetch (cloudflare_request zone_s token_s ip) ;;
    data <- lift (json response) ;;
    success <- lift (get_prop data "success") ;;
    if negb (ToBoolean success) then
      console_error [JStr "Cloudflare error:"; data] ;;;
      m <- lift (first_error_message data) ;;
      err <- lift (new_Error (or_else m (JStr "Cloudflare block failed"))) ;;
      throw err
    else
      lift (get_prop data "result").

(** ** Request router *)

(** What [res.status(code).json(body)] sends. *)
Record http_response := {
  status_code : nat;
  json_body : value
}.

(** [const { action, target, severity = "medium" } = req.body] *)
Definition destructure (req_body : value) : exn + (value * value * value) :=
  match req_body with
  | JUndefined => inl (TypeError (DestructureNullish Undefined))
  | JNull => inl (TypeError (DestructureNullish Null))
  | _ =>
      inr (prop req_body "action", prop req_body "target",
           default_to (JStr "medium") (prop req_body "severity"))
  end.

(** The body of the [try] block. *)
Definition try_block (req_body : value) : M http_response :=
  d <- lift (destructure req_body) ;;
  let '(action, target, severity) := d in
  if negb (ToBoolean action) then
    ret {| status_code := 400;
           json_body := JObj [("status", JStr "error");
                              ("message", JStr "Action is required")] |}
  else if strict_eq_str action "block_ip" then
    rule <- blockIPCloudflare target ;;
    rule_id <- lift (get_prop rule "id") ;;
    target_s <- lift (ToString target) ;;
    now <- Date_now_toISOString ;;
    ret {| status_code := 200;
           json_body := JObj [
             ("status", JStr "success");
             ("action_taken", JStr "block_ip");
             ("target", target);
             ("method", JStr "cloudflare_firewall");
             ("cloudflare_rule_id", rule_id);
             ("message", JStr ("IP " ++ target_s ++ " blocked via Cloudflare"));
             ("executed_at", JStr now)] |}
  else if strict_eq_str action "rate_limit_ip"
          || strict_eq_str action "add_waf_rule"
          || strict_eq_str action "block_endpoint" then
    upper <- lift (replaceAll_toUpperCase action) ;;
    action_s <- lift (ToString action) ;;
    let target_s := template_of_option (JSON_stringify_2 target) in
    severity_s <- lift (ToString severity) ;;
    jiraKey <- createJiraTicket
      ("[ThreatPilot] " ++ upper)
      ("Action: " ++ action_s ++ LF ++ "Target: " ++ target_s ++ LF
         ++ "Severity: " ++ severity_s)
      (Some (if strict_eq_str severity "high" then "High" else "Medium")) ;;
    ret {| status_code := 200;
           json_body := JObj [
             ("status", JStr "pending_approval");
             ("action", action);
             ("target", target);
             ("jira_ticket", jiraKey)] |}
  else if strict_eq_str action "alert_sre" then
    alertSRESlack req_body ;;;
    now <- Date_now_toISOString ;;
    ret {| status_code := 200;
           json_body := JObj [
             ("status", JStr "success");
             ("action_taken", JStr "alert_sre");
             ("method", JStr "slack_notification");
             ("message", JStr "SRE alerted via Slack");
             ("executed_at", JStr now)] |}
  else
    ret {| status_code := 400;
           json_body := JObj [("status", JStr "ignored");
                              ("message", JStr "Unsupported action")] |}.

(** The handler of [POST /execute], [try] and [catch]: the response sent
    and the state the request leaves. *)
Definition execute (req_body : value) : http_response * state :=
  match try_block req_body initial with
  | (inr response, s) => (response, s)
  | (inl err, s) =>
      let s' := {| events := events s
                     ++ [ConsoleError [JStr "❌ Remediation error:";
                                       JStr (message_of err)]];
                   clock_reads := clock_reads s |} in
      ({| status_code := 500;
          json_body := JObj [("status", JStr "error");
                             ("message", JStr (message_of err))] |}, s')
  end.

End Service.

Arguments base64 s : simpl never.
Arguments cloudflare_request {E} zoneId apiToken ip : simpl never.
Arguments jira_request {E} base auth payload : simpl never.
Arguments jira_payload {E} w summary description priority : simpl never.
Arguments slack_request {E} webhook message : simpl never.
Arguments slack_message {E} section1 section2 timestamp : simpl never.

(** ** Observations *)

Section Observations.
Context {E : Engine}.

(** A field of the JSON body of a response. *)
Definition body_field (r : http_response) (k : string) : value :=
  prop (json_body r) k.

(** The body of a response without one of its fields. *)
Definition body_without (k : string) (r : http_response) : value :=
  match json_body r with
  | JObj props => JObj (filter (fun p => negb (String.eqb (fst p) k)) props)
  | v => v
  end.

(** The outbound calls of a request, oldest first. *)
Definition fetches (s : state) : list fetch_request :=
  flat_map (fun e => match e with Fetch r => [r] | ConsoleError _ => [] end) (events s).

(** What [console.error] was given, oldest first. *)
Definition logged (s : state) : list (list value) :=
  flat_map (fun e => match e with ConsoleError a => [a] | Fetch _ => [] end) (events s).

(** The actions routed to the ticketing client. *)
Definition ticketing_action (a : string) : bool :=
  String.eqb a "rate_limit_ip" || String.eqb a "add_waf_rule"
  || String.eqb a "block_endpoint".

(** A configuration value that is set and not empty. *)
Definition configured (w : world) (name : string) : bool :=
  ToBoolean (process_env w name).

End Observations.

(** ** An engine and worlds to run the handler on

    Integers stand for the numbers, and the engine's messages are worded
    as V8 words them. *)

Definition example_TypeError_message (t : type_error) : string :=
  match t with
  | ReadPropertyOfNullish Undefined p =>
      "Cannot read properties of undefined (reading '" ++ p ++ "')"
  | ReadPropertyOfNullish Null p =>
      "Cannot read properties of null (reading '" ++ p ++ "')"
  | DestructureNullish Undefined =>
      "Cannot destructure property 'action' of 'req.body' as it is undefined."
  | DestructureNullish Null =>
      "Cannot destructure property 'action' of 'req.body' as it is null."
  | NotConvertibleToPrimitive => "Cannot convert object to primitive value"
  | NotAFunction name => "action." ++ name ++ " is not a function"
  end.

#[export] Instance example_engine : Engine := {|
  number := Z;
  Number_toString := fun z => NilZero.string_of_int (Z.to_int z);
  Number_isZeroOrNaN := fun z => Z.eqb z 0;
  Number_isFinite := fun _ => true;
  TypeError_message := example_TypeError_message
|}.

(** An environment with every configuration value set. *)
Definition example_env (name : string) : option string :=
  if String.eqb name "CF_ZONE_ID" then Some "zone-1"
  else if String.eqb name "CF_API_TOKEN" then Some "cf-token"
  else if String.eqb name "SLACK_WEBHOOK_URL" then Some "https://hooks.example/T0"
  else if String.eqb name "JIRA_BASE" then Some "https://jira.example"
  else if String.eqb name "JIRA_MAIL" then Some "bot@example.com"
  else if String.eqb name "JIRA_API" then Some "jira-token"
  else if String.eqb name "JIRA_PROJECT" then Some "SEC"
  else None.

Definition example_clock (n : nat) : string :=
  "2026-01-01T00:00:00.00" ++ NilZero.string_of_uint (Nat.to_uint n) ++ "Z".

(** A world whose remote answers every call with the given status and
    JSON body. *)
Definition answering (status : nat) (data : value) : world :=
  {| env := example_env;
     remote := fun _ => inr {| status := status; json := inr data |};
     clock := example_clock |}.

(** The same world, some ticks of the clock later. *)
Definition later (w : world) : world :=
  {| env := env w; remote := remote w; clock := fun n => clock w (n + 5) |}.

(** The same world, with no configuration at all. *)
Definition unconfigured (w : world) : world :=
  {| env := fun _ => None; remote := remote w; clock := clock w |}.

(** Answers of the firewall API. *)
Definition rule_created : value :=
  JObj [("success", JBool true); ("result", JObj [("id", JStr "rule-1")])].

Definition rule_rejected : value :=
  JObj [("success", JBool false);
        ("errors", JArr [JObj [("code", JNum 10009%Z);
                               ("message", JStr "Invalid IP address")]])].

Definition rule_without_result : value := JObj [("success", JBool true)].

Definition rule_without_id : value :=
  JObj [("success", JBool true); ("result", JObj [])].

(** Requests. *)
Definition block_request : value :=
  JObj [("action", JStr "block_ip"); ("target", JStr "203.0.113.7")].

Definition block_request_high : value :=
  JObj [("action", JStr "block_ip"); ("target", JStr "203.0.113.7");
        ("severity", JStr "high"); ("reason", JStr "brute force")].

Definition block_request_odd_target : value :=
  JObj [("action", JStr "block_ip");
        ("target", JObj [("toString", JNum 1%Z)])].

Definition waf_request : value :=
  JObj [("action", JStr "add_waf_rule");
        ("target", JObj [("path", JStr "/login")]);
        ("severity", JStr "high")].

Definition alert_request : value :=
  JObj [("action", JStr "alert_sre"); ("threat", JStr "SQLi");
        ("severity", JStr "high"); ("target", JStr "api.example.com")].


(** A world whose remote cannot be reached: every call is rejected. *)
Definition unreachable : world :=
  {| env := example_env;
     remote := fun _ => inl (FetchError "connect ECONNREFUSED");
     clock := example_clock |}.

(** A world whose remote answers every call with the given status and a
    body that is not JSON. *)
Definition answering_text (status : nat) : world :=
  {| env := example_env;
     remote := fun _ =>
       inr {| status := status;
              json := inl (FetchError "invalid json response body") |};
     clock := example_clock |}.

(** The same world, with one configuration value taken away. *)
Definition without (name : string) (w : world) : world :=
  {| env := fun k => if String.eqb k name then None else env w k;
     remote := remote w;
     clock := clock w |}.

(** More requests: an action the router does not know, an action that is
    the number zero, a ticketing
    request that names nothing but its action, one with a null severity,
    an alert that names nothing, and a block without a target. *)
Definition reboot_request : value :=
  JObj [("action", JStr "reboot"); ("target", JStr "db-1")].

Definition zero_action_request : value :=
  JObj [("action", JNum 0%Z); ("target", JStr "203.0.113.7")].




Definition bare_block_request : value := JObj [("action", JStr "block_ip")].

(** * Properties *)

Unset Implicit Arguments.

Section Properties.
Context {E : Engine}.


(** ** Reading a request *)

Lemma prop_str_inv (v : value) (k a : string) :
  prop v k = JStr a ->
  exists props, v = JObj props /\ lookup k props = Some (JStr a).
Proof.
  unfold prop, get_prop.
  destruct v; try discriminate.
  destruct (lookup k props) eqn:L; try discriminate.
  intros ->. eauto.
Qed.

Lemma destructure_JObj (props : list (string * value)) :
  destructure (JObj props) =
    inr (prop (JObj props) "action", prop (JObj props) "target",
         default_to (JStr "medium") (prop (JObj props) "severity")).
Proof. reflexivity. Qed.

Lemma ToBoolean_JStr (s : string) : s <> "" -> ToBoolean (JStr s) = true.
Proof.
  intros H. simpl. destruct (String.eqb_spec s ""); [contradiction | reflexivity].
Qed.

Lemma get_prop_JBool (v : value) (k : string) (b : bool) :
  prop v k = JBool b -> get_prop v k = inr (JBool b).
Proof.
  unfold prop. destruct v; simpl; try discriminate; intros ->; reflexivity.
Qed.

Lemma get_prop_of_present (v : value) (k : string) :
  is_nullish v = false -> get_prop v k = inr (prop v k).
Proof.
  unfold prop. destruct v; simpl; try discriminate; reflexivity.
Qed.

Lemma get_prop_of_nullish (v : value) (k : string) :
  is_nullish v = true ->
  exists base, get_prop v k = inl (TypeError (ReadPropertyOfNullish base k)).
Proof.
  destruct v; simpl; try discriminate; eauto.
Qed.

Lemma present_of_prop (v : value) (k : string) (x : value) :
  prop v k = x -> is_nullish x = false -> is_nullish v = false.
Proof.
  unfold prop. destruct v; simpl; intros <-; try discriminate; reflexivity.
Qed.

(** Enters the branch of the router that the action of the request
    selects. *)
Ltac route H :=
  let props := fresh "props" in
  destruct (prop_str_inv _ _ _ H) as (props & -> & _);
  unfold execute, try_block, bind, lift;
  rewrite destructure_JObj, H;
  cbn -[blockIPCloudflare createJiraTicket alertSRESlack get_prop prop].

Ltac run := cbn -[get_prop prop first_error_message new_Error ok or_else].

(** Runs the firewall client up to the answer of the remote, under a
    present configuration. *)
Ltac call_cloudflare Hz Hz' Ht Ht' :=
  unfold blockIPCloudflare, process_env, fetch, emit, bind, lift, console_error;
  rewrite Hz, Ht, (ToBoolean_JStr _ Hz'), (ToBoolean_JStr _ Ht'); run.

(** ** C5 *)


(** ** C4 *)

(** C4. A [block_ip] request in an environment that lacks the zone
    identifier or the API credential (the value is absent, or it is the
    empty string) sends nothing: the client throws before its [fetch], and
    the answer is 500 with the message "Cloudflare env vars missing". *)
Theorem block_ip_unconfigured (w : world) (req_body : value) :
  prop req_body "action" = JStr "block_ip" ->
  configured w "CF_ZONE_ID" = false \/ configured w "CF_API_TOKEN" = false ->
  execute w req_body =
    ({| status_code := 500;
        json_body := JObj [("status", JStr "error");
                           ("message", JStr "Cloudflare env vars missing")] |},
     {| events := [ConsoleError [JStr "❌ Remediation error:";
                                 JStr "Cloudflare env vars missing"]];
        clock_reads := 0 |})
  /\ fetches (snd (execute w req_body)) = [].
Proof.
  unfold configured. intros Ha Hc. route Ha.
  unfold blockIPCloudflare.
  destruct Hc as [Hc | Hc]; rewrite Hc.
  - split; reflexivity.
  - destruct (ToBoolean (process_env w "CF_ZONE_ID")); split; reflexivity.
Qed.

(** An absent value is a value that is not configured. *)
Lemma absent_not_configured (w : world) (name : string) :
  env w name = None -> configured w name = false.
Proof.
  unfold configured, process_env. intros ->. reflexivity.
Qed.

(** ** C1 *)

(** C1, as amended. A [block_ip] request, with both configuration values
    present, a remote answer whose [success] is true and whose [result] is
    a rule (neither absent nor null), and a target that converts to a
    string, is answered 200 with [status: "success"],
    [action_taken: "block_ip"], the target of the request,
    [method: "cloudflare_firewall"] and the [id] of the returned rule as
    [cloudflare_rule_id]; one call went out. *)
Theorem block_ip_success (w : world) (req_body : value)
    (zone token : string) (response : fetch_response) (data : value)
    (target_s : string) :
  prop req_body "action" = JStr "block_ip" ->
  env w "CF_ZONE_ID" = Some zone -> zone <> "" ->
  env w "CF_API_TOKEN" = Some token -> token <> "" ->
  remote w (cloudflare_request zone token (prop req_body "target")) = inr response ->
  json response = inr data ->
  prop data "success" = JBool true ->
  is_nullish (prop data "result") = false ->
  ToString (prop req_body "target") = inr target_s ->
  execute w req_body =
    ({| status_code := 200;
        json_body := JObj [
          ("status", JStr "success");
          ("action_taken", JStr "block_ip");
          ("target", prop req_body "target");
          ("method", JStr "cloudflare_firewall");
          ("cloudflare_rule_id", prop (prop data "result") "id");
          ("message", JStr ("IP " ++ target_s ++ " blocked via Cloudflare"));
          ("executed_at", JStr (clock w 0))] |},
     {| events := [Fetch (cloudflare_request zone token (prop req_body "target"))];
        clock_reads := 1 |}).
Proof.
  intros Ha Hz Hz' Ht Ht' Hr Hj Hs Hres Hts.
  pose proof (get_prop_JBool _ _ _ Hs) as Hsucc.
  assert (Hdata : is_nullish data = false)
    by (apply (present_of_prop _ _ _ Hs); reflexivity).
  pose proof (get_prop_of_present data "result" Hdata) as Hrule.
  pose proof (get_prop_of_present _ "id" Hres) as Hid.
  route Ha. call_cloudflare Hz Hz' Ht Ht'.
  rewrite Hr; run. rewrite Hj; run. rewrite Hsucc; run.
  rewrite Hrule; run. rewrite Hid; run. rewrite Hts; run.
  reflexivity.
Qed.

(** ** C3 *)




(** ** C9 *)

(** C9, as amended. A [block_ip] request whose remote answer has
    [success] true and a [result] that is absent or null is answered 500
    with [status: "error"]: the call went out, and reading [id] of the
    missing rule threw. *)
Theorem block_ip_rule_missing (w : world) (req_body : value)
    (zone token : string) (response : fetch_response) (data : value) :
  prop req_body "action" = JStr "block_ip" ->
  env w "CF_ZONE_ID" = Some zone -> zone <> "" ->
  env w "CF_API_TOKEN" = Some token -> token <> "" ->
  remote w (cloudflare_request zone token (prop req_body "target")) = inr response ->
  json response = inr data ->
  prop data "success" = JBool true ->
  is_nullish (prop data "result") = true ->
  exists base : nullish,
    let msg := TypeError_message (ReadPropertyOfNullish base "id") in
    execute w req_body =
      ({| status_code := 500;
          json_body := JObj [("status", JStr "error"); ("message", JStr msg)] |},
       {| events := [Fetch (cloudflare_request zone token (prop req_body "target"));
                     ConsoleError [JStr "❌ Remediation error:"; JStr msg]];
          clock_reads := 0 |}).
Proof.
  intros Ha Hz Hz' Ht Ht' Hr Hj Hs Hres.
  pose proof (get_prop_JBool _ _ _ Hs) as Hsucc.
  assert (Hdata : is_nullish data = false)
    by (apply (present_of_prop _ _ _ Hs); reflexivity).
  pose proof (get_prop_of_present data "result" Hdata) as Hrule.
  destruct (get_prop_of_nullish _ "id" Hres) as [base Hid].
  exists base.
  route Ha. call_cloudflare Hz Hz' Ht Ht'.
  rewrite Hr; run. rewrite Hj; run. rewrite Hsucc; run.
  rewrite Hrule; run. rewrite Hid; run.
  reflexivity.
Qed.
(** ** C10 *)

(** Splits on whatever the run still waits for, in the order the handler
    asks for it: a configuration value, the answer of the remote, the
    fields of that answer. *)
Ltac split_step :=
  match goal with
  | |- context [env ?w ?k] => destruct (env w k) eqn:?
  | |- context [String.eqb ?s ""] => destruct (String.eqb s "") eqn:?
  | H : forall r, remote ?w r = _ |- context [remote ?w ?r] => rewrite (H r)
  | |- context [remote ?w ?r] => destruct (remote w r) eqn:?
  | |- context [json ?r] => destruct (json r) eqn:?
  | |- context [ok ?r] => destruct (ok r) eqn:?
  | |- context [get_prop ?v ?k] => destruct (get_prop v k) eqn:?
  | |- context [ToBoolean ?v] => destruct (ToBoolean v) eqn:?
  | |- context [first_error_message ?v] => destruct (first_error_message v) eqn:?
  | |- context [new_Error ?v] => destruct (new_Error v) eqn:?
  | |- context [ToString ?v] => destruct (ToString v) eqn:?
  end.

Ltac split_run := run; repeat (split_step; run).

Ltac unfold_clients :=
  unfold blockIPCloudflare, createJiraTicket, alertSRESlack,
    JIRA_BASE_URL, JIRA_EMAIL, JIRA_API_TOKEN, JIRA_PROJECT_KEY,
    process_env, fetch, emit, bind, lift, console_error.

Lemma block_ip_outbound (w : world) (req_body : value) :
  prop req_body "action" = JStr "block_ip" ->
  forall r, In r (fetches (snd (execute w req_body))) ->
  exists zone token, r = cloudflare_request zone token (prop req_body "target").
Proof.
  intros Ha. route Ha. unfold_clients. unfold fetches.
  split_run; intros r Hin; cbn in Hin; try contradiction;
    destruct Hin as [<- | []]; eauto.
Qed.

(** C10. Two [block_ip] requests with the same target, whatever else
    their bodies hold: an outbound request of the one and an outbound
    request of the other carry the same body, which is made of the target
    alone.  Run in worlds of the same firewall configuration whose remote
    answers alike, with clocks of their own, the two requests send the
    same calls and receive the same status and the same body apart from
    [executed_at]. *)
Theorem block_ip_ignores_other_fields (w1 w2 : world) (req1 req2 : value) :
  prop req1 "action" = JStr "block_ip" ->
  prop req2 "action" = JStr "block_ip" ->
  prop req1 "target" = prop req2 "target" ->
  (forall r1 r2,
     In r1 (fetches (snd (execute w1 req1))) ->
     In r2 (fetches (snd (execute w2 req2))) ->
     body r1 = body r2 /\
     body r1 = JSON_stringify (JObj [
       ("mode", JStr "block");
       ("configuration", JObj [("target", JStr "ip"); ("value", prop req1 "target")]);
       ("notes", JStr "ThreatPilot automated remediation")]))
  /\ (env w1 "CF_ZONE_ID" = env w2 "CF_ZONE_ID" ->
      env w1 "CF_API_TOKEN" = env w2 "CF_API_TOKEN" ->
      (forall r, remote w1 r = remote w2 r) ->
      fetches (snd (execute w1 req1)) = fetches (snd (execute w2 req2)) /\
      status_code (fst (execute w1 req1)) = status_code (fst (execute w2 req2)) /\
      body_without "executed_at" (fst (execute w1 req1))
        = body_without "executed_at" (fst (execute w2 req2))).
Proof.
  intros Ha1 Ha2 Htarget. split.
  - intros r1 r2 H1 H2.
    destruct (block_ip_outbound w1 req1 Ha1 r1 H1) as (z1 & t1 & ->).
    destruct (block_ip_outbound w2 req2 Ha2 r2 H2) as (z2 & t2 & ->).
    rewrite Htarget. split; reflexivity.
  - intros Hzone Htoken Hremote.
    destruct (prop_str_inv _ _ _ Ha1) as (props1 & -> & _).
    destruct (prop_str_inv _ _ _ Ha2) as (props2 & -> & _).
    unfold execute, try_block, bind, lift.
    rewrite !destructure_JObj, Ha1, Ha2, Htarget.
    cbn -[blockIPCloudflare get_prop prop].
    unfold_clients. unfold fetches, body_without.
    rewrite Hzone, Htoken.
    split_run; repeat split; reflexivity.
Qed.
(** ** Ticketing: C2 and C6 *)

Lemma ticketing_action_inv (a : string) :
  ticketing_action a = true ->
  a = "rate_limit_ip" \/ a = "add_waf_rule" \/ a = "block_endpoint".
Proof.
  unfold ticketing_action. intros H.
  destruct (String.eqb_spec a "rate_limit_ip"); [auto |].
  destruct (String.eqb_spec a "add_waf_rule"); [auto |].
  destruct (String.eqb_spec a "block_endpoint"); [auto | discriminate].
Qed.




Lemma jira_payload_fields (w : world) (summary description priority : string) :
  let fields := prop (jira_payload w summary description priority) "fields" in
  prop fields "summary" = JStr summary /\
  prop fields "description" = JStr description /\
  prop (prop fields "priority") "name" = JStr priority.
Proof. repeat split. Qed.




(** ** Notification: C7 and C8 *)







(** * Further properties of the handler *)

(** ** What every request meets *)

Ltac run_all :=
  cbn -[get_prop prop first_error_message new_Error ok or_else process_env].

(** Splits as [split_step] does, on a request whose action is not known;
    the configuration is split on as the handler tests it. *)
Ltac split_any :=
  match goal with
  | Hp : forall k, get_prop (JObj ?props) k = _ |- context [get_prop (JObj ?props) ?k] =>
      rewrite (Hp k)
  | |- context [ToBoolean (prop ?v "action")] =>
      destruct (ToBoolean (prop v "action")) eqn:?
  | |- context [strict_eq_str ?v "block_ip"] =>
      destruct (strict_eq_str v "block_ip") eqn:?
  | |- context [strict_eq_str ?v "rate_limit_ip"] =>
      destruct (strict_eq_str v "rate_limit_ip") eqn:?
  | |- context [strict_eq_str ?v "add_waf_rule"] =>
      destruct (strict_eq_str v "add_waf_rule") eqn:?
  | |- context [strict_eq_str ?v "block_endpoint"] =>
      destruct (strict_eq_str v "block_endpoint") eqn:?
  | |- context [strict_eq_str ?v "alert_sre"] =>
      destruct (strict_eq_str v "alert_sre") eqn:?
  | |- context [ToBoolean ?v] => destruct (ToBoolean v) eqn:?
  | |- context [replaceAll_toUpperCase ?v] =>
      destruct (replaceAll_toUpperCase v) eqn:?
  | |- context [remote ?w ?r] => destruct (remote w r) eqn:?
  | |- context [json ?r] => destruct (json r) eqn:?
  | |- context [ok ?r] => destruct (ok r) eqn:?
  | |- context [get_prop ?v ?k] => destruct (get_prop v k) eqn:?
  | |- context [first_error_message ?v] => destruct (first_error_message v) eqn:?
  | |- context [new_Error ?v] => destruct (new_Error v) eqn:?
  | |- context [ToString ?v] => destruct (ToString v) eqn:?
  end.

Ltac unfold_all :=
  unfold execute, try_block, blockIPCloudflare, createJiraTicket, alertSRESlack,
    JIRA_BASE_URL, JIRA_EMAIL, JIRA_API_TOKEN, JIRA_PROJECT_KEY,
    Date_now_toISOString, fetch, emit, bind, lift, console_error.

Ltac close_outcome :=
  let r := fresh "r" in
  let s := fresh "s" in
  let H := fresh "H" in
  intros r s H; injection H as <- <-;
  unfold fetches, logged, body_field; cbn -[get_prop prop];
  split; [lia |];
  split; [auto |];
  split; [intros ?; try lia; split; auto |];
  split; [intros ?; try lia; repeat split; auto |];
  split; [intros ?; try lia; eexists;
          first [ exists (@nil event); split; reflexivity
                | eexists [_]; split; reflexivity
                | eexists [_; _]; split; reflexivity
                | eexists [_; _; _]; split; reflexivity ] |];
  split; [ let r' := fresh "r'" in
           let e := fresh "e" in
           let Hin := fresh "Hin" in
           let Hr := fresh "Hr" in
           intros r' e Hin Hr;
           repeat (destruct Hin as [<- | Hin]); try contradiction;
           try congruence;
           match goal with
           | H1 : remote _ _ = inl ?e0 |- _ =>
               assert (e = e0) by congruence; subst; split; reflexivity
           end
         | let args := fresh "args" in
           let Hin := fresh "Hin" in
           intros args Hin;
           repeat (destruct Hin as [<- | Hin]); try contradiction; eauto ].

(** What the handler does with any request body in any world: the shape
    of the answer and of the trace it leaves. *)
Lemma execute_outcome (w : world) (req_body : value) :
  forall r s, execute w req_body = (r, s) ->
  (length (fetches s) <= 1)%nat /\
  (status_code r = 200 \/ status_code r = 400 \/ status_code r = 500) /\
  (status_code r = 400 ->
     s = initial /\
     (body_field r "status" = JStr "error" \/ body_field r "status" = JStr "ignored")) /\
  (status_code r = 200 ->
     logged s = [] /\ length (fetches s) = 1%nat /\
     (body_field r "status" = JStr "success"
      \/ body_field r "status" = JStr "pending_approval")) /\
  (status_code r = 500 ->
     exists (msg : string) (earlier : list event),
       json_body r = JObj [("status", JStr "error"); ("message", JStr msg)] /\
       events s
         = (earlier ++ [ConsoleError [JStr "❌ Remediation error:"; JStr msg]])%list) /\
  (forall r' e, In r' (fetches s) -> remote w r' = inl e ->
     status_code r = 500 /\ body_field r "message" = JStr (message_of e)) /\
  (forall args, In args (logged s) ->
     (exists msg, args = [JStr "❌ Remediation error:"; JStr msg])
     \/ (exists data, args = [JStr "Cloudflare error:"; data])
     \/ (exists data, args = [JStr "Jira error:"; data])).
Proof.
  unfold_all.
  destruct req_body; try solve [cbn -[get_prop prop]; close_outcome].
  assert (Hp : forall k, get_prop (JObj props) k = inr (prop (JObj props) k))
    by reflexivity.
  rewrite destructure_JObj.
  run_all. repeat (split_any; run_all).
  all: clear Hp; close_outcome.
Qed.

(** X1. No request makes the handler call out more than once. *)
Theorem at_most_one_outbound_call (w : world) (req_body : value) :
  (length (fetches (snd (execute w req_body))) <= 1)%nat.
Proof.
  destruct (execute w req_body) as [r s] eqn:H.
  apply (execute_outcome w req_body r s H).
Qed.

(** X2. Every answer has one of three shapes: 200 with status "success"
    or "pending_approval", 400 with status "error" or "ignored", or 500
    with the body [{status: "error", message}]. *)
Theorem answer_shapes (w : world) (req_body : value) :
  let r := fst (execute w req_body) in
  (status_code r = 200 /\
   (body_field r "status" = JStr "success"
    \/ body_field r "status" = JStr "pending_approval"))
  \/ (status_code r = 400 /\
      (body_field r "status" = JStr "error" \/ body_field r "status" = JStr "ignored"))
  \/ (status_code r = 500 /\
      exists msg, json_body r = JObj [("status", JStr "error"); ("message", JStr msg)]).
Proof.
  destruct (execute w req_body) as [r s] eqn:H. cbn [fst].
  destruct (execute_outcome w req_body r s H)
    as (_ & Hst & H400 & H200 & H500 & _).
  destruct Hst as [Hc | [Hc | Hc]].
  - left. split; [assumption | apply (H200 Hc)].
  - right; left. split; [assumption | apply (H400 Hc)].
  - right; right. split; [assumption |].
    destruct (H500 Hc) as (msg & earlier & Hbody & _). eauto.
Qed.

(** X3. A request that is answered 400 left no trace: nothing was sent,
    nothing was logged, the clock was not read. *)
Theorem refusal_leaves_no_trace (w : world) (req_body : value) :
  status_code (fst (execute w req_body)) = 400 ->
  snd (execute w req_body) = initial.
Proof.
  destruct (execute w req_body) as [r s] eqn:H. cbn [fst snd]. intros Hc.
  apply (execute_outcome w req_body r s H). exact Hc.
Qed.

(** X4. A request that is answered 200 made exactly one outbound call,
    which was not rejected, and logged nothing. *)
Theorem success_follows_one_call (w : world) (req_body : value) :
  status_code (fst (execute w req_body)) = 200 ->
  logged (snd (execute w req_body)) = [] /\
  exists r response,
    fetches (snd (execute w req_body)) = [r] /\ remote w r = inr response.
Proof.
  destruct (execute w req_body) as [r s] eqn:H. cbn [fst snd]. intros Hc.
  destruct (execute_outcome w req_body r s H)
    as (_ & _ & _ & H200 & _ & Hrej & _).
  destruct (H200 Hc) as (Hlog & Hone & _).
  split; [assumption |].
  destruct (fetches s) as [| r0 [| r1 rest]]; try discriminate.
  exists r0.
  destruct (remote w r0) as [e | response] eqn:Hr.
  - destruct (Hrej r0 e (or_introl eq_refl) Hr) as [H5 _]. rewrite Hc in H5. discriminate.
  - eauto.
Qed.

(** X5. A request that is answered 500 has its error message logged by
    the router, and that is the last thing the handler does. *)
Theorem failure_is_logged_last (w : world) (req_body : value) :
  status_code (fst (execute w req_body)) = 500 ->
  exists (msg : string) (earlier : list event),
    body_field (fst (execute w req_body)) "message" = JStr msg /\
    events (snd (execute w req_body))
      = (earlier ++ [ConsoleError [JStr "❌ Remediation error:"; JStr msg]])%list.
Proof.
  destruct (execute w req_body) as [r s] eqn:H. cbn [fst snd]. intros Hc.
  destruct (execute_outcome w req_body r s H) as (_ & _ & _ & _ & H500 & _).
  destruct (H500 Hc) as (msg & earlier & Hbody & Hev).
  exists msg, earlier. split; [| assumption].
  unfold body_field. rewrite Hbody. reflexivity.
Qed.

(** X6. Whatever the action, an outbound call that is rejected (the
    remote was not reached) makes the answer 500 with the message of the
    rejection. *)
Theorem rejected_call_surfaces (w : world) (req_body : value)
    (r : fetch_request) (e : exn) :
  In r (fetches (snd (execute w req_body))) ->
  remote w r = inl e ->
  status_code (fst (execute w req_body)) = 500 /\
  body_field (fst (execute w req_body)) "message" = JStr (message_of e).
Proof.
  destruct (execute w req_body) as [r0 s] eqn:H. cbn [fst snd]. intros Hin Hr.
  destruct (execute_outcome w req_body r0 s H) as (_ & _ & _ & _ & _ & Hrej & _).
  exact (Hrej r e Hin Hr).
Qed.

(** X7. The handler logs three kinds of lines and no other: the
    router's error line with the message of the error, and the two
    clients' lines with the body the remote answered. *)
Theorem what_is_logged (w : world) (req_body : value) (args : list value) :
  In args (logged (snd (execute w req_body))) ->
  (exists msg, args = [JStr "❌ Remediation error:"; JStr msg])
  \/ (exists data, args = [JStr "Cloudflare error:"; data])
  \/ (exists data, args = [JStr "Jira error:"; data]).
Proof.
  destruct (execute w req_body) as [r s] eqn:H. cbn [snd]. intros Hin.
  destruct (execute_outcome w req_body r s H) as (_ & _ & _ & _ & _ & _ & Hlog).
  exact (Hlog args Hin).
Qed.

(** ** The router's own answers *)

Lemma strict_eq_str_false (v : value) (s : string) :
  v <> JStr s -> strict_eq_str v s = false.
Proof.
  intros H. destruct v; try reflexivity. simpl.
  destruct (String.eqb_spec s0 s); [subst; contradiction | reflexivity].
Qed.

Lemma truthy_prop_inv (v : value) (k : string) :
  ToBoolean (prop v k) = true -> exists props, v = JObj props.
Proof.
  unfold prop. destruct v; simpl; try discriminate. eauto.
Qed.

(** X8. A request whose action is truthy and is none of the five known
    names (another string, or no string at all) is answered 400 with
    [{status: "ignored", message: "Unsupported action"}], and nothing is
    sent or logged. *)
Theorem unsupported_action (w : world) (req_body : value) :
  ToBoolean (prop req_body "action") = true ->
  ~ In (prop req_body "action")
       [JStr "block_ip"; JStr "rate_limit_ip"; JStr "add_waf_rule";
        JStr "block_endpoint"; JStr "alert_sre"] ->
  execute w req_body =
    ({| status_code := 400;
        json_body := JObj [("status", JStr "ignored");
                           ("message", JStr "Unsupported action")] |},
     initial).
Proof.
  intros Htruthy Hnot.
  destruct (truthy_prop_inv _ _ Htruthy) as [props ->].
  unfold execute, try_block, bind, lift.
  rewrite destructure_JObj.
  cbn -[blockIPCloudflare createJiraTicket alertSRESlack prop strict_eq_str].
  rewrite Htruthy.
  assert (Hno : forall s,
             In (JStr s) [JStr "block_ip"; JStr "rate_limit_ip"; JStr "add_waf_rule";
                          JStr "block_endpoint"; JStr "alert_sre"] ->
             strict_eq_str (prop (JObj props) "action") s = false).
  { intros s Hin. apply strict_eq_str_false. intros Heq. apply Hnot.
    rewrite Heq. exact Hin. }
  rewrite (Hno "block_ip"), (Hno "rate_limit_ip"), (Hno "add_waf_rule"),
    (Hno "block_endpoint"), (Hno "alert_sre") by (simpl; auto 6).
  reflexivity.
Qed.

(** X9. A request with a body whose action is falsy (absent, null,
    false, zero or the empty string) is answered 400 with
    [{status: "error", message: "Action is required"}], and nothing is
    sent or logged. *)
Theorem falsy_action_refused (w : world) (req_body : value) :
  is_nullish req_body = false ->
  ToBoolean (prop req_body "action") = false ->
  execute w req_body =
    ({| status_code := 400;
        json_body := JObj [("status", JStr "error");
                           ("message", JStr "Action is required")] |},
     initial).
Proof.
  intros Hbody Hfalsy.
  unfold execute, try_block, bind, lift.
  destruct req_body; try discriminate; try reflexivity.
  rewrite destructure_JObj.
  cbn -[blockIPCloudflare createJiraTicket alertSRESlack prop strict_eq_str].
  rewrite Hfalsy. reflexivity.
Qed.

(** X10. A request without a body (an undefined or null [req.body]) is
    not refused with 400: reading the action off it throws, the router
    logs the error and answers 500; nothing is sent. *)
Theorem missing_body_fails (w : world) (req_body : value) :
  is_nullish req_body = true ->
  exists base : nullish,
    let msg := TypeError_message (DestructureNullish base) in
    execute w req_body =
      ({| status_code := 500;
          json_body := JObj [("status", JStr "error"); ("message", JStr msg)] |},
       {| events := [ConsoleError [JStr "❌ Remediation error:"; JStr msg]];
          clock_reads := 0 |}).
Proof.
  intros Hbody. destruct req_body; try discriminate.
  - exists Undefined. reflexivity.
  - exists Null. reflexivity.
Qed.

(** ** The ticketing client *)

(** X11. A ticketing request in an environment where one of the four
    tracker values is not configured (absent or empty) sends nothing and
    is answered 500; when the severity converts to a string the message is
    "Jira environment variables missing". *)
Theorem ticket_unconfigured (w : world) (req_body : value) (action : string) :
  prop req_body "action" = JStr action ->
  ticketing_action action = true ->
  configured w "JIRA_BASE" = false \/ configured w "JIRA_MAIL" = false
  \/ configured w "JIRA_API" = false \/ configured w "JIRA_PROJECT" = false ->
  fetches (snd (execute w req_body)) = [] /\
  status_code (fst (execute w req_body)) = 500 /\
  (forall severity_s,
     ToString (default_to (JStr "medium") (prop req_body "severity"))
       = inr severity_s ->
     body_field (fst (execute w req_body)) "message"
       = JStr "Jira environment variables missing").
Proof.
  unfold configured. intros Ha Ht Hc.
  destruct (ticketing_action_inv action Ht) as [-> | [-> | ->]];
    route Ha;
    unfold createJiraTicket, JIRA_BASE_URL, JIRA_EMAIL, JIRA_API_TOKEN,
      JIRA_PROJECT_KEY, fetches, body_field;
    destruct (ToBoolean (process_env w "JIRA_BASE"));
    destruct (ToBoolean (process_env w "JIRA_MAIL"));
    destruct (ToBoolean (process_env w "JIRA_API"));
    destruct (ToBoolean (process_env w "JIRA_PROJECT"));
    try (exfalso; destruct Hc as [Hc | [Hc | [Hc | Hc]]]; discriminate);
    destruct (ToString (default_to (JStr "medium") (prop (JObj props) "severity")));
    run_all; repeat split; intros; try discriminate; reflexivity.
Qed.

Ltac run_in H :=
  cbn -[get_prop prop first_error_message new_Error ok or_else] in H.

(** Runs the ticketing client up to the answer of the remote, under a
    present configuration and a severity that converts. *)
Ltac call_jira Hs Hb Hb' Hm Hm' Hk Hk' Hp Hp' :=
  unfold_clients;
  rewrite Hs, Hb, Hm, Hk, Hp,
    (ToBoolean_JStr _ Hb'), (ToBoolean_JStr _ Hm'),
    (ToBoolean_JStr _ Hk'), (ToBoolean_JStr _ Hp');
  run.

(** X12. A ticketing request, with the tracker configured, a severity
    that converts to a string, and a remote that answers the ticket
    creation with a 2xx status and a JSON body that is not null, is
    answered 200 with [status: "pending_approval"], the action and the
    target of the request, and the [key] of the remote's body as
    [jira_ticket]; nothing is logged. *)
Theorem ticket_created (w : world) (req_body : value)
    (action severity_s base mail api project : string)
    (response : fetch_response) (data : value) :
  prop req_body "action" = JStr action ->
  ticketing_action action = true ->
  ToString (default_to (JStr "medium") (prop req_body "severity")) = inr severity_s ->
  env w "JIRA_BASE" = Some base -> base <> "" ->
  env w "JIRA_MAIL" = Some mail -> mail <> "" ->
  env w "JIRA_API" = Some api -> api <> "" ->
  env w "JIRA_PROJECT" = Some project -> project <> "" ->
  let request :=
    jira_request base (base64 (mail ++ ":" ++ api))
      (jira_payload w
         ("[ThreatPilot] " ++ toUpperCase (replaceAll_underscore_space action))
         ("Action: " ++ action ++ LF ++ "Target: "
            ++ template_of_option (JSON_stringify_2 (prop req_body "target"))
            ++ LF ++ "Severity: " ++ severity_s)
         (if strict_eq_str (default_to (JStr "medium") (prop req_body "severity"))
                           "high"
          then "High" else "Medium")) in
  remote w request = inr response ->
  ok response = true ->
  json response = inr data ->
  is_nullish data = false ->
  execute w req_body =
    ({| status_code := 200;
        json_body := JObj [("status", JStr "pending_approval");
                           ("action", JStr action);
                           ("target", prop req_body "target");
                           ("jira_ticket", prop data "key")] |},
     {| events := [Fetch request]; clock_reads := 0 |}).
Proof.
  intros Ha Ht Hs Hb Hb' Hm Hm' Hk Hk' Hp Hp' request Hr Hok Hj Hdata.
  subst request.
  pose proof (get_prop_of_present data "key" Hdata) as Hkey.
  destruct (ticketing_action_inv action Ht) as [-> | [-> | ->]];
    route Ha; call_jira Hs Hb Hb' Hm Hm' Hk Hk' Hp Hp';
    run_in Hr; rewrite Hr; run; rewrite Hj; run; rewrite Hok; run;
    rewrite Hkey; reflexivity.
Qed.

(** X13. When the remote answers the ticket creation with a status
    outside 2xx and a JSON body, the body is logged after the call, and
    the request is answered 500 with "Failed to create Jira ticket",
    whatever the body says. *)
Theorem ticket_refused (w : world) (req_body : value)
    (action severity_s base mail api project : string)
    (response : fetch_response) (data : value) :
  prop req_body "action" = JStr action ->
  ticketing_action action = true ->
  ToString (default_to (JStr "medium") (prop req_body "severity")) = inr severity_s ->
  env w "JIRA_BASE" = Some base -> base <> "" ->
  env w "JIRA_MAIL" = Some mail -> mail <> "" ->
  env w "JIRA_API" = Some api -> api <> "" ->
  env w "JIRA_PROJECT" = Some project -> project <> "" ->
  let request :=
    jira_request base (base64 (mail ++ ":" ++ api))
      (jira_payload w
         ("[ThreatPilot] " ++ toUpperCase (replaceAll_underscore_space action))
         ("Action: " ++ action ++ LF ++ "Target: "
            ++ template_of_option (JSON_stringify_2 (prop req_body "target"))
            ++ LF ++ "Severity: " ++ severity_s)
         (if strict_eq_str (default_to (JStr "medium") (prop req_body "severity"))
                           "high"
          then "High" else "Medium")) in
  remote w request = inr response ->
  ok response = false ->
  json response = inr data ->
  execute w req_body =
    ({| status_code := 500;
        json_body := JObj [("status", JStr "error");
                           ("message", JStr "Failed to create Jira ticket")] |},
     {| events := [Fetch request;
                   ConsoleError [JStr "Jira error:"; data];
                   ConsoleError [JStr "❌ Remediation error:";
                                 JStr "Failed to create Jira ticket"]];
        clock_reads := 0 |}).
Proof.
  intros Ha Ht Hs Hb Hb' Hm Hm' Hk Hk' Hp Hp' request Hr Hok Hj.
  subst request.
  destruct (ticketing_action_inv action Ht) as [-> | [-> | ->]];
    route Ha; call_jira Hs Hb Hb' Hm Hm' Hk Hk' Hp Hp';
    run_in Hr; rewrite Hr; run; rewrite Hj; run; rewrite Hok; reflexivity.
Qed.

(** X14. When the body of the remote's answer to the ticket creation
    cannot be read as JSON, the request is answered 500 with the message
    of that failure, whatever the status of the answer, a 2xx included;
    the tracker's line is not logged. *)
Theorem ticket_answer_unreadable (w : world) (req_body : value)
    (action severity_s base mail api project : string)
    (response : fetch_response) (e : exn) :
  prop req_body "action" = JStr action ->
  ticketing_action action = true ->
  ToString (default_to (JStr "medium") (prop req_body "severity")) = inr severity_s ->
  env w "JIRA_BASE" = Some base -> base <> "" ->
  env w "JIRA_MAIL" = Some mail -> mail <> "" ->
  env w "JIRA_API" = Some api -> api <> "" ->
  env w "JIRA_PROJECT" = Some project -> project <> "" ->
  let request :=
    jira_request base (base64 (mail ++ ":" ++ api))
      (jira_payload w
         ("[ThreatPilot] " ++ toUpperCase (replaceAll_underscore_space action))
         ("Action: " ++ action ++ LF ++ "Target: "
            ++ template_of_option (JSON_stringify_2 (prop req_body "target"))
            ++ LF ++ "Severity: " ++ severity_s)
         (if strict_eq_str (default_to (JStr "medium") (prop req_body "severity"))
                           "high"
          then "High" else "Medium")) in
  remote w request = inr response ->
  json response = inl e ->
  execute w req_body =
    ({| status_code := 500;
        json_body := JObj [("status", JStr "error");
                           ("message", JStr (message_of e))] |},
     {| events := [Fetch request;
                   ConsoleError [JStr "❌ Remediation error:"; JStr (message_of e)]];
        clock_reads := 0 |}).
Proof.
  intros Ha Ht Hs Hb Hb' Hm Hm' Hk Hk' Hp Hp' request Hr Hj.
  subst request.
  destruct (ticketing_action_inv action Ht) as [-> | [-> | ->]];
    route Ha; call_jira Hs Hb Hb' Hm Hm' Hk Hk' Hp Hp';
    run_in Hr; rewrite Hr; run; rewrite Hj; reflexivity.
Qed.




(** ** The notification client *)

(** X18. An [alert_sre] request in an environment where the webhook is
    not configured (absent or empty) sends nothing and is answered 500
    with "Slack webhook not configured". *)
Theorem alert_unconfigured (w : world) (req_body : value) :
  prop req_body "action" = JStr "alert_sre" ->
  configured w "SLACK_WEBHOOK_URL" = false ->
  execute w req_body =
    ({| status_code := 500;
        json_body := JObj [("status", JStr "error");
                           ("message", JStr "Slack webhook not configured")] |},
     {| events := [ConsoleError [JStr "❌ Remediation error:";
                                 JStr "Slack webhook not configured"]];
        clock_reads := 0 |}).
Proof.
  unfold configured. intros Ha Hw. route Ha.
  unfold alertSRESlack. rewrite Hw. reflexivity.
Qed.


(** ** The firewall client *)


(** X21. When the firewall answers with the JSON value null, reading
    [success] off it throws: the request is answered 500 with the
    engine's message, and the firewall's line is not logged. *)
Theorem block_ip_null_answer (w : world) (req_body : value)
    (zone token : string) (response : fetch_response) (data : value) :
  prop req_body "action" = JStr "block_ip" ->
  env w "CF_ZONE_ID" = Some zone -> zone <> "" ->
  env w "CF_API_TOKEN" = Some token -> token <> "" ->
  remote w (cloudflare_request zone token (prop req_body "target")) = inr response ->
  json response = inr data ->
  is_nullish data = true ->
  exists base : nullish,
    let msg := TypeError_message (ReadPropertyOfNullish base "success") in
    execute w req_body =
      ({| status_code := 500;
          json_body := JObj [("status", JStr "error"); ("message", JStr msg)] |},
       {| events := [Fetch (cloudflare_request zone token (prop req_body "target"));
                     ConsoleError [JStr "❌ Remediation error:"; JStr msg]];
          clock_reads := 0 |}).
Proof.
  intros Ha Hz Hz' Ht Ht' Hr Hj Hdata.
  destruct (get_prop_of_nullish data "success" Hdata) as [base Hsucc].
  exists base.
  route Ha. call_cloudflare Hz Hz' Ht Ht'.
  rewrite Hr; run. rewrite Hj; run. rewrite Hsucc. reflexivity.
Qed.

(** X22. When the body of the firewall's answer cannot be read as JSON,
    the request is answered 500 with the message of that failure,
    whatever the status of the answer; the firewall's line is not
    logged. *)
Theorem block_ip_answer_unreadable (w : world) (req_body : value)
    (zone token : string) (response : fetch_response) (e : exn) :
  prop req_body "action" = JStr "block_ip" ->
  env w "CF_ZONE_ID" = Some zone -> zone <> "" ->
  env w "CF_API_TOKEN" = Some token -> token <> "" ->
  remote w (cloudflare_request zone token (prop req_body "target")) = inr response ->
  json response = inl e ->
  execute w req_body =
    ({| status_code := 500;
        json_body := JObj [("status", JStr "error");
                           ("message", JStr (message_of e))] |},
     {| events := [Fetch (cloudflare_request zone token (prop req_body "target"));
                   ConsoleError [JStr "❌ Remediation error:"; JStr (message_of e)]];
        clock_reads := 0 |}).
Proof.
  intros Ha Hz Hz' Ht Ht' Hr Hj.
  route Ha. call_cloudflare Hz Hz' Ht Ht'.
  rewrite Hr; run. rewrite Hj. reflexivity.
Qed.

(** X23. A [block_ip] request without a target is not refused: the call
    goes out with a configuration that has no [value] at all, and when the
    remote accepts it the answer is 200 with the message
    "IP undefined blocked via Cloudflare". *)
Theorem block_ip_without_target (w : world) (req_body : value)
    (zone token : string) (response : fetch_response) (data : value) :
  prop req_body "action" = JStr "block_ip" ->
  prop req_body "target" = JUndefined ->
  env w "CF_ZONE_ID" = Some zone -> zone <> "" ->
  env w "CF_API_TOKEN" = Some token -> token <> "" ->
  remote w (cloudflare_request zone token JUndefined) = inr response ->
  json response = inr data ->
  prop data "success" = JBool true ->
  is_nullish (prop data "result") = false ->
  execute w req_body =
    ({| status_code := 200;
        json_body := JObj [
          ("status", JStr "success");
          ("action_taken", JStr "block_ip");
          ("target", JUndefined);
          ("method", JStr "cloudflare_firewall");
          ("cloudflare_rule_id", prop (prop data "result") "id");
          ("message", JStr "IP undefined blocked via Cloudflare");
          ("executed_at", JStr (clock w 0))] |},
     {| events := [Fetch (cloudflare_request zone token JUndefined)];
        clock_reads := 1 |})
  /\ body (cloudflare_request zone token JUndefined) =
       JSON_stringify (JObj [
         ("mode", JStr "block");
         ("configuration", JObj [("target", JStr "ip")]);
         ("notes", JStr "ThreatPilot automated remediation")]).
Proof.
  intros Ha Htarget Hz Hz' Ht Ht' Hr Hj Hs Hres.
  pose proof (get_prop_JBool _ _ _ Hs) as Hsucc.
  assert (Hdata : is_nullish data = false)
    by (apply (present_of_prop _ _ _ Hs); reflexivity).
  pose proof (get_prop_of_present data "result" Hdata) as Hrule.
  pose proof (get_prop_of_present _ "id" Hres) as Hid.
  split; [| reflexivity].
  route Ha. rewrite Htarget. call_cloudflare Hz Hz' Ht Ht'.
  rewrite Hr; run. rewrite Hj; run. rewrite Hsucc; run.
  rewrite Hrule; run. rewrite Hid; run.
  reflexivity.
Qed.

End Properties.

(** * The properties at work on concrete requests *)

(** ** C1 *)

Lemma block_ip_success_witness :
  execute (answering 200 rule_created) block_request =
    ({| status_code := 200;
        json_body := JObj [
          ("status", JStr "success");
          ("action_taken", JStr "block_ip");
          ("target", JStr "203.0.113.7");
          ("method", JStr "cloudflare_firewall");
          ("cloudflare_rule_id", JStr "rule-1");
          ("message", JStr "IP 203.0.113.7 blocked via Cloudflare");
          ("executed_at", JStr "2026-01-01T00:00:00.000Z")] |},
     {| events := [Fetch (cloudflare_request "zone-1" "cf-token" (JStr "203.0.113.7"))];
        clock_reads := 1 |}).
Proof.
  apply (block_ip_success (answering 200 rule_created) block_request
           "zone-1" "cf-token"
           {| status := 200; json := inr rule_created |} rule_created
           "203.0.113.7");
    try reflexivity; discriminate.
Defined.

(** C1 as the specification states it fails on a target that does not
    convert to a string: the firewall is configured, the remote call goes
    out and succeeds with a rule, and the answer is 500. *)
Lemma block_ip_success_counterexample :
  let w := answering 200 rule_created in
  let req := block_request_odd_target in
  prop req "action" = JStr "block_ip" /\
  configured w "CF_ZONE_ID" = true /\
  configured w "CF_API_TOKEN" = true /\
  remote w (cloudflare_request "zone-1" "cf-token" (prop req "target"))
    = inr {| status := 200; json := inr rule_created |} /\
  prop rule_created "success" = JBool true /\
  prop (prop rule_created "result") "id" = JStr "rule-1" /\
  fetches (snd (execute w req))
    = [cloudflare_request "zone-1" "cf-token" (prop req "target")] /\
  fst (execute w req) =
    {| status_code := 500;
       json_body := JObj [("status", JStr "error");
                          ("message", JStr "Cannot convert object to primitive value")] |}.
Proof. repeat split. Qed.

(** ** C2 *)


(** The ticket of that request, as it goes out. *)
Lemma ticket_of_waf_request :
  let w := answering 201 (JObj [("key", JStr "SEC-7")]) in
  execute w waf_request =
    ({| status_code := 200;
        json_body := JObj [("status", JStr "pending_approval");
                           ("action", JStr "add_waf_rule");
                           ("target", JObj [("path", JStr "/login")]);
                           ("jira_ticket", JStr "SEC-7")] |},
     {| events := [Fetch (jira_request "https://jira.example"
                            (base64 "bot@example.com:jira-token")
                            (jira_payload w
                               "[ThreatPilot] ADD WAF RULE"
                               ("Action: add_waf_rule" ++ LF
                                  ++ "Target: {" ++ LF
                                  ++ "  " ++ DQUOTE ++ "path" ++ DQUOTE ++ ": "
                                  ++ DQUOTE ++ "/login" ++ DQUOTE ++ LF
                                  ++ "}" ++ LF ++ "Severity: high")
                               "High"))];
        clock_reads := 0 |}).
Proof. reflexivity. Qed.

(** ** C3 *)


(** The message of that failure is the first message of [errors]; with no
    [errors] it is the generic one. *)
Lemma block_ip_rejected_messages :
  body_field (fst (execute (answering 403 rule_rejected) block_request)) "message"
    = JStr "Invalid IP address" /\
  body_field (fst (execute (answering 200 (JObj [("success", JBool false)]))
                     block_request)) "message"
    = JStr "Cloudflare block failed" /\
  body_field (fst (execute (answering 200
                              (JObj [("success", JBool false);
                                     ("errors", JArr [JObj [("message", JStr "")]])]))
                     block_request)) "message"
    = JStr "Cloudflare block failed".
Proof. repeat split. Qed.

(** ** C4 *)

Lemma block_ip_unconfigured_witness :
  let w := unconfigured (answering 200 rule_created) in
  execute w block_request =
    ({| status_code := 500;
        json_body := JObj [("status", JStr "error");
                           ("message", JStr "Cloudflare env vars missing")] |},
     {| events := [ConsoleError [JStr "❌ Remediation error:";
                                 JStr "Cloudflare env vars missing"]];
        clock_reads := 0 |})
  /\ fetches (snd (execute w block_request)) = [].
Proof.
  apply (block_ip_unconfigured (unconfigured (answering 200 rule_created))
           block_request);
    [reflexivity | left; reflexivity].
Defined.

(** ** C5 *)


(** ** C6 *)



(** ** C7 *)



(** ** C8 *)



(** ** C9 *)

Lemma block_ip_rule_missing_witness :
  exists base : nullish,
    let msg := TypeError_message (ReadPropertyOfNullish base "id") in
    execute (answering 200 rule_without_result) block_request =
      ({| status_code := 500;
          json_body := JObj [("status", JStr "error"); ("message", JStr msg)] |},
       {| events := [Fetch (cloudflare_request "zone-1" "cf-token"
                              (prop block_request "target"));
                     ConsoleError [JStr "❌ Remediation error:"; JStr msg]];
          clock_reads := 0 |}).
Proof.
  apply (block_ip_rule_missing (answering 200 rule_without_result) block_request
           "zone-1" "cf-token" {| status := 200; json := inr rule_without_result |}
           rule_without_result);
    try reflexivity; discriminate.
Defined.

(** C9 as the specification states it fails on a rule that is there and
    has no [id]: nothing throws, and the answer is 200 with an undefined
    [cloudflare_rule_id]. *)
Lemma block_ip_rule_missing_counterexample :
  let w := answering 200 rule_without_id in
  prop block_request "action" = JStr "block_ip" /\
  prop rule_without_id "success" = JBool true /\
  prop rule_without_id "result" = JObj [] /\
  prop (prop rule_without_id "result") "id" = JUndefined /\
  status_code (fst (execute w block_request)) = 200 /\
  body_field (fst (execute w block_request)) "status" = JStr "success" /\
  body_field (fst (execute w block_request)) "cloudflare_rule_id" = JUndefined.
Proof. repeat split. Qed.

(** ** C10 *)

Lemma block_ip_ignores_other_fields_witness :
  let w1 := answering 200 rule_created in
  let w2 := later (answering 200 rule_created) in
  (forall r1 r2,
     In r1 (fetches (snd (execute w1 block_request))) ->
     In r2 (fetches (snd (execute w2 block_request_high))) ->
     body r1 = body r2 /\
     body r1 = JSON_stringify (JObj [
       ("mode", JStr "block");
       ("configuration", JObj [("target", JStr "ip");
                               ("value", prop block_request "target")]);
       ("notes", JStr "ThreatPilot automated remediation")]))
  /\ (env w1 "CF_ZONE_ID" = env w2 "CF_ZONE_ID" ->
      env w1 "CF_API_TOKEN" = env w2 "CF_API_TOKEN" ->
      (forall r, remote w1 r = remote w2 r) ->
      fetches (snd (execute w1 block_request))
        = fetches (snd (execute w2 block_request_high)) /\
      status_code (fst (execute w1 block_request))
        = status_code (fst (execute w2 block_request_high)) /\
      body_without "executed_at" (fst (execute w1 block_request))
        = body_without "executed_at" (fst (execute w2 block_request_high))).
Proof.
  apply (block_ip_ignores_other_fields
           (answering 200 rule_created) (later (answering 200 rule_created))
           block_request block_request_high);
    reflexivity.
Defined.

(** The two answers of that example: alike but for the time. *)
Lemma block_ip_ignores_other_fields_example :
  let r1 := fst (execute (answering 200 rule_created) block_request) in
  let r2 := fst (execute (later (answering 200 rule_created)) block_request_high) in
  body_field r1 "executed_at" = JStr "2026-01-01T00:00:00.000Z" /\
  body_field r2 "executed_at" = JStr "2026-01-01T00:00:00.005Z" /\
  body_without "executed_at" r1 = body_without "executed_at" r2 /\
  body_without "executed_at" r1 =
    JObj [("status", JStr "success");
          ("action_taken", JStr "block_ip");
          ("target", JStr "203.0.113.7");
          ("method", JStr "cloudflare_firewall");
          ("cloudflare_rule_id", JStr "rule-1");
          ("message", JStr "IP 203.0.113.7 blocked via Cloudflare")].
Proof. repeat split. Qed.

(** * The further properties at work *)

Lemma refusal_leaves_no_trace_witness :
  snd (execute (answering 200 rule_created) reboot_request) = initial.
Proof.
  apply (refusal_leaves_no_trace (answering 200 rule_created) reboot_request).
  reflexivity.
Defined.

Lemma success_follows_one_call_witness :
  let w := answering 200 rule_created in
  logged (snd (execute w block_request)) = [] /\
  exists r response,
    fetches (snd (execute w block_request)) = [r] /\ remote w r = inr response.
Proof.
  apply (success_follows_one_call (answering 200 rule_created) block_request).
  reflexivity.
Defined.

Lemma failure_is_logged_last_witness :
  let w := answering 403 rule_rejected in
  exists (msg : string) (earlier : list event),
    body_field (fst (execute w block_request)) "message" = JStr msg /\
    events (snd (execute w block_request))
      = (earlier ++ [ConsoleError [JStr "❌ Remediation error:"; JStr msg]])%list.
Proof.
  apply (failure_is_logged_last (answering 403 rule_rejected) block_request).
  reflexivity.
Defined.

Lemma rejected_call_surfaces_witness :
  status_code (fst (execute unreachable waf_request)) = 500 /\
  body_field (fst (execute unreachable waf_request)) "message"
    = JStr "connect ECONNREFUSED".
Proof.
  apply (rejected_call_surfaces unreachable waf_request
           (jira_request "https://jira.example"
              (base64 "bot@example.com:jira-token")
              (jira_payload unreachable
                 "[ThreatPilot] ADD WAF RULE"
                 ("Action: add_waf_rule" ++ LF
                    ++ "Target: {" ++ LF
                    ++ "  " ++ DQUOTE ++ "path" ++ DQUOTE ++ ": "
                    ++ DQUOTE ++ "/login" ++ DQUOTE ++ LF
                    ++ "}" ++ LF ++ "Severity: high")
                 "High"))
           (FetchError "connect ECONNREFUSED")).
  - left. reflexivity.
  - reflexivity.
Defined.

Lemma what_is_logged_witness :
  let args := [JStr "Cloudflare error:"; rule_rejected] in
  (exists msg, args = [JStr "❌ Remediation error:"; JStr msg])
  \/ (exists data, args = [JStr "Cloudflare error:"; data])
  \/ (exists data, args = [JStr "Jira error:"; data]).
Proof.
  apply (what_is_logged (answering 403 rule_rejected) block_request
           [JStr "Cloudflare error:"; rule_rejected]).
  left. reflexivity.
Defined.

Lemma unsupported_action_witness :
  execute (answering 200 rule_created) reboot_request =
    ({| status_code := 400;
        json_body := JObj [("status", JStr "ignored");
                           ("message", JStr "Unsupported action")] |},
     initial).
Proof.
  apply (unsupported_action (answering 200 rule_created) reboot_request).
  - reflexivity.
  - simpl. intros [H | [H | [H | [H | [H | []]]]]]; discriminate.
Defined.

Lemma falsy_action_refused_witness :
  execute (answering 200 rule_created) zero_action_request =
    ({| status_code := 400;
        json_body := JObj [("status", JStr "error");
                           ("message", JStr "Action is required")] |},
     initial).
Proof.
  apply (falsy_action_refused (answering 200 rule_created) zero_action_request);
    reflexivity.
Defined.

Lemma missing_body_fails_witness :
  exists base : nullish,
    let msg := TypeError_message (DestructureNullish base) in
    execute (answering 200 rule_created) JUndefined =
      ({| status_code := 500;
          json_body := JObj [("status", JStr "error"); ("message", JStr msg)] |},
       {| events := [ConsoleError [JStr "❌ Remediation error:"; JStr msg]];
          clock_reads := 0 |}).
Proof.
  apply (missing_body_fails (answering 200 rule_created) JUndefined).
  reflexivity.
Defined.

Lemma ticket_unconfigured_witness :
  let w := without "JIRA_API" (answering 201 (JObj [("key", JStr "SEC-7")])) in
  fetches (snd (execute w waf_request)) = [] /\
  status_code (fst (execute w waf_request)) = 500 /\
  (forall severity_s,
     ToString (default_to (JStr "medium") (prop waf_request "severity"))
       = inr severity_s ->
     body_field (fst (execute w waf_request)) "message"
       = JStr "Jira environment variables missing").
Proof.
  apply (ticket_unconfigured
           (without "JIRA_API" (answering 201 (JObj [("key", JStr "SEC-7")])))
           waf_request "add_waf_rule").
  - reflexivity.
  - reflexivity.
  - right; right; left. reflexivity.
Defined.

Lemma ticket_created_witness :
  let w := answering 201 (JObj [("key", JStr "SEC-7")]) in
  execute w waf_request =
    ({| status_code := 200;
        json_body := JObj [("status", JStr "pending_approval");
                           ("action", JStr "add_waf_rule");
                           ("target", prop waf_request "target");
                           ("jira_ticket", JStr "SEC-7")] |},
     {| events := [Fetch (jira_request "https://jira.example"
                            (base64 ("bot@example.com" ++ ":" ++ "jira-token"))
                            (jira_payload w
                               ("[ThreatPilot] "
                                  ++ toUpperCase (replaceAll_underscore_space "add_waf_rule"))
                               ("Action: " ++ "add_waf_rule" ++ LF ++ "Target: "
                                  ++ template_of_option
                                       (JSON_stringify_2 (prop waf_request "target"))
                                  ++ LF ++ "Severity: " ++ "high")
                               "High"))];
        clock_reads := 0 |}).
Proof.
  apply (ticket_created (answering 201 (JObj [("key", JStr "SEC-7")])) waf_request
           "add_waf_rule" "high" "https://jira.example" "bot@example.com"
           "jira-token" "SEC"
           {| status := 201; json := inr (JObj [("key", JStr "SEC-7")]) |}
           (JObj [("key", JStr "SEC-7")]));
    try reflexivity; discriminate.
Defined.

Lemma ticket_refused_witness :
  let data := JObj [("errorMessages", JArr [JStr "project is required"])] in
  let w := answering 400 data in
  exists request,
    execute w waf_request =
      ({| status_code := 500;
          json_body := JObj [("status", JStr "error");
                             ("message", JStr "Failed to create Jira ticket")] |},
       {| events := [Fetch request;
                     ConsoleError [JStr "Jira error:"; data];
                     ConsoleError [JStr "❌ Remediation error:";
                                   JStr "Failed to create Jira ticket"]];
          clock_reads := 0 |}).
Proof.
  eexists.
  apply (ticket_refused
           (answering 400 (JObj [("errorMessages", JArr [JStr "project is required"])]))
           waf_request
           "add_waf_rule" "high" "https://jira.example" "bot@example.com"
           "jira-token" "SEC"
           {| status := 400;
              json := inr (JObj [("errorMessages", JArr [JStr "project is required"])]) |}
           (JObj [("errorMessages", JArr [JStr "project is required"])]));
    try reflexivity; discriminate.
Defined.

Lemma ticket_answer_unreadable_witness :
  exists request,
    execute (answering_text 201) waf_request =
      ({| status_code := 500;
          json_body := JObj [("status", JStr "error");
                             ("message", JStr "invalid json response body")] |},
       {| events := [Fetch request;
                     ConsoleError [JStr "❌ Remediation error:";
                                   JStr "invalid json response body"]];
          clock_reads := 0 |}).
Proof.
  eexists.
  apply (ticket_answer_unreadable (answering_text 201) waf_request
           "add_waf_rule" "high" "https://jira.example" "bot@example.com"
           "jira-token" "SEC"
           {| status := 201; json := inl (FetchError "invalid json response body") |}
           (FetchError "invalid json response body"));
    try reflexivity; discriminate.
Defined.




Lemma alert_unconfigured_witness :
  execute (without "SLACK_WEBHOOK_URL" (answering 200 (JStr "ok"))) alert_request =
    ({| status_code := 500;
        json_body := JObj [("status", JStr "error");
                           ("message", JStr "Slack webhook not configured")] |},
     {| events := [ConsoleError [JStr "❌ Remediation error:";
                                 JStr "Slack webhook not configured"]];
        clock_reads := 0 |}).
Proof.
  apply (alert_unconfigured (without "SLACK_WEBHOOK_URL" (answering 200 (JStr "ok")))
           alert_request);
    reflexivity.
Defined.



Lemma block_ip_null_answer_witness :
  exists base : nullish,
    let msg := TypeError_message (ReadPropertyOfNullish base "success") in
    execute (answering 200 JNull) block_request =
      ({| status_code := 500;
          json_body := JObj [("status", JStr "error"); ("message", JStr msg)] |},
       {| events := [Fetch (cloudflare_request "zone-1" "cf-token"
                              (prop block_request "target"));
                     ConsoleError [JStr "❌ Remediation error:"; JStr msg]];
          clock_reads := 0 |}).
Proof.
  apply (block_ip_null_answer (answering 200 JNull) block_request
           "zone-1" "cf-token" {| status := 200; json := inr JNull |} JNull);
    try reflexivity; discriminate.
Defined.

Lemma block_ip_answer_unreadable_witness :
  execute (answering_text 502) block_request =
    ({| status_code := 500;
        json_body := JObj [("status", JStr "error");
                           ("message", JStr "invalid json response body")] |},
     {| events := [Fetch (cloudflare_request "zone-1" "cf-token"
                            (prop block_request "target"));
                   ConsoleError [JStr "❌ Remediation error:";
                                 JStr "invalid json response body"]];
        clock_reads := 0 |}).
Proof.
  apply (block_ip_answer_unreadable (answering_text 502) block_request
           "zone-1" "cf-token"
           {| status := 502; json := inl (FetchError "invalid json response body") |}
           (FetchError "invalid json response body"));
    try reflexivity; discriminate.
Defined.

Lemma block_ip_without_target_witness :
  let w := answering 200 rule_created in
  execute w bare_block_request =
    ({| status_code := 200;
        json_body := JObj [
          ("status", JStr "success");
          ("action_taken", JStr "block_ip");
          ("target", JUndefined);
          ("method", JStr "cloudflare_firewall");
          ("cloudflare_rule_id", JStr "rule-1");
          ("message", JStr "IP undefined blocked via Cloudflare");
          ("executed_at", JStr (clock w 0))] |},
     {| events := [Fetch (cloudflare_request "zone-1" "cf-token" JUndefined)];
        clock_reads := 1 |})
  /\ body (cloudflare_request "zone-1" "cf-token" JUndefined) =
       JSON_stringify (JObj [
         ("mode", JStr "block");
         ("configuration", JObj [("target", JStr "ip")]);
         ("notes", JStr "ThreatPilot automated remediation")]).
Proof.
  apply (block_ip_without_target (answering 200 rule_created) bare_block_request
           "zone-1" "cf-token" {| status := 200; json := inr rule_created |}
           rule_created);
    try reflexivity; discriminate.
Defined.
